(** * taps.data.config: filter selection and the data-transformer registry

    A shallow embedding of [src/taps/data/config.py]:

    - [FilterConfig] and its [get_filter] selector;
    - [_DataTransformerConfigRegistry], whose [_configs] dict lives in an
      object store so that the reference handed out by [get_registered]
      aliases the registry's own table;
    - [DataTransformerChoicesConfig.add_argument_group], which drives an
      [argparse] parser; the parser is modelled by the calls made on it.

    Python values are modelled as follows: [str] as [string] (the UTF-8
    bytes, whose lexicographic order is the code-point order Python's
    [sorted] uses), [int] as [Z], [float] as IEEE 754 binary64
    ([PrimFloat.float]), [X | None] as [option X], a [dict] as an
    insertion-ordered association list with unique keys, and a raised
    exception as the left injection of a sum. *)

From Stdlib Require Import ZArith Floats.PrimFloat Floats.FloatOps Floats.SpecFloat.
From stdpp Require Import base option list strings sorting gmap.

Local Open Scope string_scope.
Local Open Scope list_scope.

(** ** Exceptions *)

(** The exceptions this module can raise. [ConstructorError] stands for
    whatever a registered configuration type raises from its own
    constructor (for a pydantic model, a validation error). *)
Inductive exn : Type :=
| AssertionError (msg : string)
| KeyError (key : string)
| IndexError
| ValueError
| ConstructorError (msg : string).

#[global] Instance exn_eq_dec : EqDecision exn.
Proof. solve_decision. Defined.

(** The result of a call that may raise. *)
Definition result (A : Type) : Type := exn + A.

Definition raises {A} (r : result A) : bool :=
  match r with inl _ => true | inr _ => false end.

(** ** Size filters *)

Module FilterModel.

(** Modelled from the spec: the filter classes of [taps.data.filter]
    ([NullFilter], [ObjectSizeFilter], [PickleSizeFilter]) are imported by
    the source but defined outside it.  A size filter holds [min_bytes]
    and [max_bytes]; the null filter holds nothing. *)
Inductive Filter : Type :=
| NullFilter
| ObjectSizeFilter (min_bytes : Z) (max_bytes : float)
| PickleSizeFilter (min_bytes : Z) (max_bytes : float).

(** Python compares an [int] with a [float] exactly (no rounding of the
    integer).  [Z_le_float z f] is [z <= f]: false on NaN, decided by the
    sign on infinities, and by cross-multiplying with the power of two of
    the exponent on finite values. *)
Definition signed (s : bool) (m : positive) : Z :=
  if s then Z.neg m else Z.pos m.

Definition Z_le_spec_float (z : Z) (f : spec_float) : bool :=
  match f with
  | S754_nan => false
  | S754_infinity s => negb s
  | S754_zero _ => (z <=? 0)%Z
  | S754_finite s m e =>
      if (0 <=? e)%Z then (z <=? signed s m * 2 ^ e)%Z
      else (z * 2 ^ (- e) <=? signed s m)%Z
  end.

Definition Z_le_float (z : Z) (f : float) : bool :=
  Z_le_spec_float z (Prim2SF f).

Section Keep.
(** The items flowing through the pipeline and the two size measures:
    the in-memory footprint and the length of the pickled form. *)
Context {item : Type}.
Variable object_size : item → Z.
Variable pickle_size : item → Z.

(** Modelled from the spec: the keep-or-drop decision of a filter.
    Null keeps everything; a size filter keeps an item iff
    [min_bytes <= size <= max_bytes], both ends inclusive. *)
Definition keep (f : Filter) (x : item) : bool :=
  match f with
  | NullFilter => true
  | ObjectSizeFilter lo hi =>
      (lo <=? object_size x)%Z && Z_le_float (object_size x) hi
  | PickleSizeFilter lo hi =>
      (lo <=? pickle_size x)%Z && Z_le_float (pickle_size x) hi
  end.
End Keep.

End FilterModel.
Export FilterModel.

(** ** FilterConfig *)

(** The declared type of [filter_type]:
    [Optional[Literal['object-size', 'pickle-size']]]. *)
Inductive FilterTypeLiteral : Type :=
| LitObjectSize
| LitPickleSize.

Definition literal_value (l : FilterTypeLiteral) : string :=
  match l with
  | LitObjectSize => "object-size"
  | LitPickleSize => "pickle-size"
  end.

(** The run-time value of a field of the declared type. *)
Definition declared_value (t : option FilterTypeLiteral) : option string :=
  literal_value <$> t.

(** The fields of [FilterConfig].  At run time [filter_type] is [None] or
    some string: [get_filter] itself tests for strings outside the
    declared literal, so the record does not exclude them. *)
Record FilterConfig : Type := mkFilterConfig {
  filter_type : option string;
  filter_min_size : Z;
  filter_max_size : float;
}.

(** The field defaults: [None], [0] and [math.inf]. *)
Definition default_FilterConfig : FilterConfig :=
  {| filter_type := None; filter_min_size := 0; filter_max_size := infinity |}.

(** [FilterConfig.get_filter]. *)
Definition get_filter (self : FilterConfig) : result Filter :=
  match filter_type self with
  | None => inr NullFilter
  | Some t =>
      if String.eqb t "object-size" then
        inr (ObjectSizeFilter (filter_min_size self) (filter_max_size self))
      else if String.eqb t "pickle-size" then
        inr (PickleSizeFilter (filter_min_size self) (filter_max_size self))
      else
        inl (AssertionError ("Unknown filter type " ++ t ++ ".")%string)
  end.

(** The filter types outside the declared literal. *)
Definition unknown_filter_type (t : option string) : Prop :=
  t ≠ None ∧ t ≠ Some "object-size" ∧ t ≠ Some "pickle-size".

(** Which branch [get_filter] took. *)
Inductive FilterKind : Type :=
| KNull | KObjectSize | KPickleSize | KAssertion | KOtherError.

Definition filter_kind (r : result Filter) : FilterKind :=
  match r with
  | inr NullFilter => KNull
  | inr (ObjectSizeFilter _ _) => KObjectSize
  | inr (PickleSizeFilter _ _) => KPickleSize
  | inl (AssertionError _) => KAssertion
  | inl _ => KOtherError
  end.

(** ** Python dicts *)

(** A [dict] with [str] keys: an association list in insertion order,
    one entry per key.  [setitem] is [d[k] = v]: it overwrites in place
    when [k] is present and appends otherwise, as CPython does. *)
Module PyDict.
Section PyDict.
Context {V : Type}.

Definition t : Type := list (string * V).

Definition empty : t := [].

Fixpoint getitem (d : t) (k : string) : option V :=
  match d with
  | [] => None
  | (k', v) :: d' => if decide (k' = k) then Some v else getitem d' k
  end.

Fixpoint setitem (d : t) (k : string) (v : V) : t :=
  match d with
  | [] => [(k, v)]
  | (k', v') :: d' =>
      if decide (k' = k) then (k, v) :: d' else (k', v') :: setitem d' k v
  end.

Definition keys (d : t) : list string := d.*1.

Definition items (d : t) : list (string * V) := d.
End PyDict.
Arguments t : clear implicits.
End PyDict.

(** ** The object store and the effect monad *)

Definition loc : Type := positive.

(** Python sequences of strings: [l.index(x)] finds the first occurrence
    and raises [ValueError] when there is none; [l[i]] raises [IndexError]
    past the end. *)
Fixpoint list_index (x : string) (l : list string) : option nat :=
  match l with
  | [] => None
  | y :: l' => if decide (y = x) then Some 0 else S <$> list_index x l'
  end.

(** The keyword arguments of one [group.add_argument] call. *)
Record Argument : Type := mkArgument {
  option_string : string;
  choices : list string;
  default : string;
  help : string;
}.

#[global] Instance result_ret : MRet result := λ A, inr.
#[global] Instance result_bind : MBind result :=
  λ A B k r, match r with inr a => k a | inl e => inl e end.

Definition index (l : list string) (x : string) : result nat :=
  match list_index x l with
  | Some i => mret i
  | None => inl ValueError
  end.

Definition getitem (l : list string) (i : nat) : result string :=
  match l !! i with
  | Some x => mret x
  | None => inl IndexError
  end.

Section Effects.
(** [ConfigType] is the type of the registered class objects
    ([type[DataTransformerConfig]]). *)
Context {ConfigType : Type}.

(** An [argparse.ArgumentParser] is observed through the calls made on
    it, in order: [parser.add_argument_group(title)], an
    [add_argument] on the group of that title, and the classmethod
    [config_type.add_argument_group(parser, argv=..., required=...)] of
    a registered configuration type. *)
Inductive ParserCall : Type :=
| AddArgumentGroup (title : string)
| AddArgument (group : string) (a : Argument)
| ConfigArgumentGroup (config_type : ConfigType)
    (argv : option (list string)) (required : bool).

(** The mutable objects of the program: the dicts and the parsers,
    each reached through a reference. *)
Record World : Type := mkWorld {
  dicts : gmap loc (PyDict.t ConfigType);
  parsers : gmap loc (list ParserCall);
}.

(** A computation reads and writes the world and returns or raises;
    the writes made before an exception stay. *)
Definition M (A : Type) : Type := World → result A * World.

Definition ret {A} (a : A) : M A := λ w, (inr a, w).

Definition bind {A B} (m : M A) (k : A → M B) : M B :=
  λ w, match m w with
       | (inr a, w') => k a w'
       | (inl e, w') => (inl e, w')
       end.

Definition lift {A} (r : result A) : M A := λ w, (r, w).

(** The dict behind a reference. *)
Definition deref (l : loc) (w : World) : PyDict.t ConfigType :=
  dicts w !!! l.

(** The calls made so far on the parser behind a reference. *)
Definition calls (p : loc) (w : World) : list ParserCall :=
  parsers w !!! p.

Definition dict_new : M loc :=
  λ w, let l := fresh (dom (dicts w)) in
       (inr l, {| dicts := <[l := PyDict.empty]> (dicts w);
                  parsers := parsers w |}).

(** [d.keys()] and [d.items()], read when they are iterated. *)
Definition dict_keys (l : loc) : M (list string) :=
  λ w, (inr (PyDict.keys (deref l w)), w).

Definition dict_items (l : loc) : M (list (string * ConfigType)) :=
  λ w, (inr (PyDict.items (deref l w)), w).

(** [d[k] = v] through the reference [l]. *)
Definition dict_setitem (l : loc) (k : string) (v : ConfigType) : M unit :=
  λ w, (inr tt, {| dicts := <[l := PyDict.setitem (deref l w) k v]> (dicts w);
                   parsers := parsers w |}).

(** [d[k]], raising [KeyError] on a missing key. *)
Definition dict_getitem (l : loc) (k : string) : M ConfigType :=
  λ w, match PyDict.getitem (deref l w) k with
       | Some v => (inr v, w)
       | None => (inl (KeyError k), w)
       end.

Definition parser_call (p : loc) (c : ParserCall) : M unit :=
  λ w, (inr tt, {| dicts := dicts w;
                   parsers := <[p := (calls p w ++ [c])%list]> (parsers w) |}).

(** [for x in xs: body(x)]. *)
Fixpoint for_each {A} (xs : list A) (body : A → M unit) : M unit :=
  match xs with
  | [] => ret tt
  | x :: xs' => bind (body x) (λ _, for_each xs' body)
  end.
End Effects.
Arguments ParserCall : clear implicits.
Arguments World : clear implicits.
Arguments M : clear implicits.

#[global] Instance M_ret {C} : MRet (M C) := λ A, ret.
#[global] Instance M_bind {C} : MBind (M C) := λ A B k m, bind m k.

(** ** The registry *)

Module _DataTransformerConfigRegistry.
Section Methods.
(** [Options] stands for the keyword arguments [**options], [Instance]
    for the constructed [DataTransformerConfig] objects, and
    [construct cls options] for the call [cls( **options)]. *)
Context {ConfigType Options Instance : Type}.
Variable construct : ConfigType → Options → result Instance.

Record t : Type := mk { _configs : loc }.

(** [self._configs = {}]. *)
Definition __init__ : M ConfigType t :=
  l ← dict_new; mret {| _configs := l |}.

(** [return self._configs[transformer]( **options)]. *)
Definition get_transformer_config (self : t) (transformer : string)
    (options : Options) : M ConfigType Instance :=
  cls ← dict_getitem (_configs self) transformer;
  lift (construct cls options).

(** [return self._configs]: the reference itself. *)
Definition get_registered (self : t) : M ConfigType loc :=
  mret (_configs self).

(** [register(name=...)] returns the decorator; the decorator stores
    the class under [name] and returns it. *)
Definition register (self : t) (name : string)
    : ConfigType → M ConfigType ConfigType :=
  λ cls, dict_setitem (_configs self) name cls;; mret cls.
End Methods.
End _DataTransformerConfigRegistry.

(** ** Module level: the singleton registry and the choice configuration *)

(** Python's [sorted] on strings. *)
Definition sorted (l : list string) : list string := merge_sort String.le l.

Section ModuleLevel.
Context {ConfigType Options Instance : Type}.
Variable construct : ConfigType → Options → result Instance.

(** [_transformer_configs = _DataTransformerConfigRegistry()], created
    when the module is imported. *)
Variable _transformer_configs : _DataTransformerConfigRegistry.t.

(** The three bound methods exported by the module. *)
Definition register : string → ConfigType → M ConfigType ConfigType :=
  _DataTransformerConfigRegistry.register _transformer_configs.

Definition get_transformer_config
    : string → Options → M ConfigType Instance :=
  _DataTransformerConfigRegistry.get_transformer_config construct
    _transformer_configs.

Definition get_registered : M ConfigType loc :=
  _DataTransformerConfigRegistry.get_registered _transformer_configs.

(** The registry's table in a given world: the dict behind [_configs]. *)
Definition registry_table (w : World ConfigType) : PyDict.t ConfigType :=
  deref (_DataTransformerConfigRegistry._configs _transformer_configs) w.

(** The pre-scan of the raw arguments (lines 85-87 of the source): the
    token after the first ['--executor'], if that flag occurs. *)
Definition scan_executor_type (argv : option (list string))
    : result (option string) :=
  match argv with
  | Some a =>
      if bool_decide ("--executor" ∈ a) then
        i ← index a "--executor";
        v ← getitem a (i + 1);
        mret (Some v)
      else mret None
  | None => mret None
  end.

(** [DataTransformerChoicesConfig.add_argument_group(parser, argv=...,
    required=...)]; [cls] is [cls.__name__].  The [required] parameter
    is accepted and not used, as in the source. *)
Definition add_argument_group (cls : string) (parser : loc)
    (argv : option (list string)) (required : bool) : M ConfigType unit :=
  configs ← get_registered;
  parser_call parser (AddArgumentGroup cls);;
  names ← dict_keys configs;
  parser_call parser
    (AddArgument cls {| option_string := "--transformer";
                        choices := sorted names;
                        default := "null";
                        help := "executor to use" |});;
  executor_type ← lift (scan_executor_type argv);
  entries ← dict_items configs;
  for_each entries (λ '(name, config_type),
    parser_call parser
      (ConfigArgumentGroup config_type argv
         (bool_decide (Some name = executor_type)))).

(** The selector argument [add_argument_group] builds from the registry
    as it is in [w]. *)
Definition selector_call (cls : string) (w : World ConfigType)
    : ParserCall ConfigType :=
  AddArgument cls {| option_string := "--transformer";
                     choices := sorted (PyDict.keys (registry_table w));
                     default := "null";
                     help := "executor to use" |}.

(** The calls the loop over [configs.items()] makes when the pre-scan
    found [executor_type]. *)
Definition component_calls (argv : option (list string))
    (executor_type : option string) (entries : list (string * ConfigType))
    : list (ParserCall ConfigType) :=
  (λ '(name, config_type),
     ConfigArgumentGroup config_type argv
       (bool_decide (Some name = executor_type))) <$> entries.
End ModuleLevel.

(** Whether a call on the parser is a registered type's own
    [add_argument_group]. *)
Definition is_config_group {ConfigType} (c : ParserCall ConfigType) : bool :=
  match c with
  | ConfigArgumentGroup _ _ _ => true
  | _ => false
  end.

(** The [required=] flag such a call was given. *)
Definition required_of {ConfigType} (c : ParserCall ConfigType) : option bool :=
  match c with
  | ConfigArgumentGroup _ _ r => Some r
  | _ => None
  end.

(** The registered type and the [argv=] such a call was given. *)
Definition config_type_of {ConfigType} (c : ParserCall ConfigType)
    : option ConfigType :=
  match c with
  | ConfigArgumentGroup t _ _ => Some t
  | _ => None
  end.

Definition argv_of {ConfigType} (c : ParserCall ConfigType)
    : option (option (list string)) :=
  match c with
  | ConfigArgumentGroup _ a _ => Some a
  | _ => None
  end.

(** The world after the decorators [register(name=n)(c)] have run for
    each [(n, c)] of [rs], in order, as at import time. *)
Fixpoint registrations {ConfigType} (reg : _DataTransformerConfigRegistry.t)
    (rs : list (string * ConfigType)) (w : World ConfigType)
    : World ConfigType :=
  match rs with
  | [] => w
  | (n, c) :: rs' => registrations reg rs' (register reg n c w).2
  end.

(** The type of the last pair of [rs] named [name]. *)
Fixpoint last_binding {ConfigType} (rs : list (string * ConfigType))
    (name : string) : option ConfigType :=
  match rs with
  | [] => None
  | (n, c) :: rs' =>
      match last_binding rs' name with
      | Some c' => Some c'
      | None => if decide (n = name) then Some c else None
      end
  end.

(** ** A concrete program run *)

(** Configuration classes named by their class name, keyword arguments as
    a list of bindings, and a constructor that stores them.  The world is
    the one reached by importing the module and registering ['null'] and
    ['foo']; [parser] is a parser nobody has called yet. *)
Module Example.

Definition ConfigType : Type := string.
Definition Options : Type := list (string * Z).
Definition Instance : Type := (string * list (string * Z))%type.

Definition construct (cls : ConfigType) (options : Options) : result Instance :=
  inr (cls, options).

Definition empty_world : World ConfigType := {| dicts := ∅; parsers := ∅ |}.

Definition import_module : M ConfigType _DataTransformerConfigRegistry.t :=
  r ← _DataTransformerConfigRegistry.__init__;
  register r "null" "NullTransformerConfig";;
  register r "foo" "FooConfig";;
  mret r.

Definition _transformer_configs : _DataTransformerConfigRegistry.t :=
  {| _DataTransformerConfigRegistry._configs := 1%positive |}.

Definition world : World ConfigType := (import_module empty_world).2.

Definition parser : loc := 7%positive.

End Example.

(** * Properties *)

(** ** Dicts *)

Section PyDictFacts.
Context {V : Type}.
Implicit Types (d : PyDict.t V) (k : string) (v : V).

Lemma getitem_setitem d k v :
  PyDict.getitem (PyDict.setitem d k v) k = Some v.
Proof.
  induction d as [|[k' v'] d IH]; simpl.
  - by rewrite decide_True.
  - destruct (decide (k' = k)) as [->|Hne]; simpl.
    + by rewrite decide_True.
    + by rewrite decide_False.
Qed.

Lemma getitem_setitem_ne d k k' v :
  k ≠ k' → PyDict.getitem (PyDict.setitem d k v) k' = PyDict.getitem d k'.
Proof.
  intros Hne. induction d as [|[k0 v0] d IH]; simpl.
  - by rewrite decide_False.
  - destruct (decide (k0 = k)) as [->|Hk]; simpl.
    + by rewrite !decide_False.
    + by rewrite IH.
Qed.

Lemma getitem_None d k :
  PyDict.getitem d k = None ↔ k ∉ PyDict.keys d.
Proof.
  unfold PyDict.keys. induction d as [|[k' v'] d IH]; simpl.
  - split; [intros _; apply not_elem_of_nil | done].
  - rewrite not_elem_of_cons. destruct (decide (k' = k)) as [->|Hne].
    + split; [done | by intros [? _]].
    + rewrite IH. split; [by split | by intros [_ ?]].
Qed.

Lemma getitem_Some_elem_of d k v :
  PyDict.getitem d k = Some v → (k, v) ∈ PyDict.items d.
Proof.
  unfold PyDict.items. induction d as [|[k' v'] d IH]; simpl; [done|].
  destruct (decide (k' = k)) as [->|Hne].
  - intros [= ->]. left.
  - intros H. right. by apply IH.
Qed.

(** Overwriting a present key keeps every key in its place. *)
Lemma keys_setitem_present d k v :
  k ∈ PyDict.keys d → PyDict.keys (PyDict.setitem d k v) = PyDict.keys d.
Proof.
  unfold PyDict.keys. induction d as [|[k' v'] d IH]; simpl.
  - by intros ?%elem_of_nil.
  - destruct (decide (k' = k)) as [->|Hne]; simpl; [done|].
    intros [?|Hin]%elem_of_cons; [congruence|]. f_equal. by apply IH.
Qed.

(** A new key goes to the end. *)
Lemma keys_setitem_fresh d k v :
  k ∉ PyDict.keys d →
  PyDict.keys (PyDict.setitem d k v) = (PyDict.keys d ++ [k])%list.
Proof.
  unfold PyDict.keys. induction d as [|[k' v'] d IH]; simpl; [done|].
  intros [Hne Hnin]%not_elem_of_cons.
  rewrite decide_False by done. simpl. f_equal. by apply IH.
Qed.

(** [setitem] keeps the keys of a dict distinct. *)
Lemma keys_setitem_NoDup d k v :
  NoDup (PyDict.keys d) → NoDup (PyDict.keys (PyDict.setitem d k v)).
Proof.
  intros Hnd. destruct (decide (k ∈ PyDict.keys d)) as [Hin|Hnin].
  - by rewrite keys_setitem_present.
  - rewrite keys_setitem_fresh by done.
    apply NoDup_app. split_and!; [done| |apply NoDup_singleton].
    intros x Hx ->%list_elem_of_singleton. done.
Qed.
End PyDictFacts.

(** ** The filter selector *)

Lemma get_filter_None mn mx :
  get_filter (mkFilterConfig None mn mx) = inr NullFilter.
Proof. reflexivity. Qed.

Lemma get_filter_object_size mn mx :
  get_filter (mkFilterConfig (Some "object-size") mn mx)
  = inr (ObjectSizeFilter mn mx).
Proof. reflexivity. Qed.

Lemma get_filter_pickle_size mn mx :
  get_filter (mkFilterConfig (Some "pickle-size") mn mx)
  = inr (PickleSizeFilter mn mx).
Proof. reflexivity. Qed.

Lemma get_filter_unknown t mn mx :
  t ≠ "object-size" → t ≠ "pickle-size" →
  get_filter (mkFilterConfig (Some t) mn mx)
  = inl (AssertionError ("Unknown filter type " ++ t ++ ".")%string).
Proof.
  intros H1 H2. unfold get_filter; simpl.
  apply String.eqb_neq in H1, H2. by rewrite H1, H2.
Qed.

Lemma get_filter_cases c :
  (filter_type c = None ∧ get_filter c = inr NullFilter)
  ∨ (filter_type c = Some "object-size"
     ∧ get_filter c
       = inr (ObjectSizeFilter (filter_min_size c) (filter_max_size c)))
  ∨ (filter_type c = Some "pickle-size"
     ∧ get_filter c
       = inr (PickleSizeFilter (filter_min_size c) (filter_max_size c)))
  ∨ (unknown_filter_type (filter_type c)
     ∧ ∃ t, filter_type c = Some t
            ∧ get_filter c
              = inl (AssertionError ("Unknown filter type " ++ t ++ ".")%string)).
Proof.
  destruct c as [[t|] mn mx]; simpl; [|by left].
  destruct (decide (t = "object-size")) as [->|H1]; [right; left; done|].
  destruct (decide (t = "pickle-size")) as [->|H2]; [right; right; left; done|].
  right; right; right. split.
  - unfold unknown_filter_type. naive_solver.
  - exists t. split; [done|]. by apply get_filter_unknown.
Qed.

(** The defaults select the null filter. *)
Lemma get_filter_default : get_filter default_FilterConfig = inr NullFilter.
Proof. reflexivity. Qed.

(** The bounds of a size filter are inclusive: [ObjectSizeFilter(10, 20)]
    keeps sizes 10 and 20 and drops 9 and 21; the default upper bound
    [math.inf] drops nothing. *)
Lemma keep_inclusive_bounds :
  let f := ObjectSizeFilter 10 20%float in
  keep id id f 10%Z = true ∧ keep id id f 20%Z = true
  ∧ keep id id f 9%Z = false ∧ keep id id f 21%Z = false
  ∧ keep id id (PickleSizeFilter 0 infinity) (2 ^ 80)%Z = true.
Proof. by vm_compute. Qed.

(** C2: [get_filter] raises, and then an [AssertionError], exactly when
    [filter_type] is neither [None], ['object-size'] nor ['pickle-size'];
    no value of the declared type
    [Optional[Literal['object-size', 'pickle-size']]] reaches that branch. *)
Theorem get_filter_assertion_iff_unknown :
  (∀ c, (∃ msg, get_filter c = inl (AssertionError msg))
        ↔ unknown_filter_type (filter_type c))
  ∧ (∀ c, raises (get_filter c) = true ↔ unknown_filter_type (filter_type c))
  ∧ (∀ t mn mx,
       raises (get_filter (mkFilterConfig (declared_value t) mn mx)) = false).
Proof.
  split_and!.
  - intros c. unfold unknown_filter_type.
    destruct (get_filter_cases c) as [[Ht ->]|[[Ht ->]|[[Ht ->]|[Hu (t & Ht & ->)]]]];
      try (rewrite Ht; split; [intros [? [=]] | intros (?&?&?); congruence]).
    split; [done | eauto].
  - intros c. unfold unknown_filter_type.
    destruct (get_filter_cases c) as [[Ht ->]|[[Ht ->]|[[Ht ->]|[Hu (t & Ht & ->)]]]];
      try (rewrite Ht; split; [done | intros (?&?&?); congruence]).
    done.
  - by intros [[]|] mn mx.
Qed.

(** C4: with [filter_type = None], [get_filter] returns the null filter,
    which keeps every item, whatever [filter_min_size] and
    [filter_max_size] are. *)
Theorem get_filter_None_is_NullFilter (mn : Z) (mx : float) :
  get_filter (mkFilterConfig None mn mx) = inr NullFilter
  ∧ ∀ (item : Type) (object_size pickle_size : item → Z) (x : item),
      keep object_size pickle_size NullFilter x = true.
Proof. split; [apply get_filter_None | done]. Qed.

(** C5: ['object-size'] yields an [ObjectSizeFilter] and ['pickle-size'] a
    [PickleSizeFilter], each built with [min_bytes = filter_min_size] and
    [max_bytes = filter_max_size]; the branch taken is a function of
    [filter_type] alone. *)
Theorem get_filter_size_dispatch :
  (∀ mn mx, get_filter (mkFilterConfig (Some "object-size") mn mx)
            = inr (ObjectSizeFilter mn mx))
  ∧ (∀ mn mx, get_filter (mkFilterConfig (Some "pickle-size") mn mx)
              = inr (PickleSizeFilter mn mx))
  ∧ (∀ t mn1 mx1 mn2 mx2,
       filter_kind (get_filter (mkFilterConfig t mn1 mx1))
       = filter_kind (get_filter (mkFilterConfig t mn2 mx2))).
Proof.
  split_and!; [done..|].
  intros t mn1 mx1 mn2 mx2. unfold get_filter; simpl.
  destruct t as [t|]; [|done]. by repeat case_match.
Qed.

(** ** The object store *)

Section StoreFacts.
Context {ConfigType : Type}.
Implicit Types (w : World ConfigType) (l p : loc).

Lemma deref_dict_setitem l k v w :
  deref l (dict_setitem l k v w).2 = PyDict.setitem (deref l w) k v.
Proof. unfold deref; simpl. by rewrite lookup_total_insert_eq. Qed.

Lemma deref_dict_setitem_ne l l' k v w :
  l ≠ l' → deref l' (dict_setitem l k v w).2 = deref l' w.
Proof. intros. unfold deref; simpl. by rewrite lookup_total_insert_ne. Qed.

Lemma calls_dict_setitem l k v p w :
  calls p (dict_setitem l k v w).2 = calls p w.
Proof. done. Qed.

Lemma deref_parser_call p c l w :
  deref l (parser_call p c w).2 = deref l w.
Proof. done. Qed.

Lemma calls_parser_call p c w :
  calls p (parser_call p c w).2 = (calls p w ++ [c])%list.
Proof. unfold calls; simpl. by rewrite lookup_total_insert_eq. Qed.

Lemma calls_parser_call_ne p q c w :
  p ≠ q → calls q (parser_call p c w).2 = calls q w.
Proof. intros. unfold calls; simpl. by rewrite lookup_total_insert_ne. Qed.

(** A fresh dict is empty and does not alias an allocated one. *)
Lemma dict_new_fresh w :
  ∃ l, (dict_new w).1 = inr l
       ∧ dicts w !! l = None
       ∧ deref l (dict_new w).2 = PyDict.empty
       ∧ ∀ l', l' ≠ l → deref l' (dict_new w).2 = deref l' w.
Proof.
  exists (fresh (dom (dicts w))). split_and!; [done| | |].
  - apply not_elem_of_dom, is_fresh.
  - unfold deref; simpl. by rewrite lookup_total_insert_eq.
  - intros l' Hne. unfold deref; simpl. by rewrite lookup_total_insert_ne.
Qed.
End StoreFacts.


(** ** The registry *)

Section RegistryFacts.
Context {ConfigType Options Instance : Type}.
Variable construct : ConfigType → Options → result Instance.
Variable reg : _DataTransformerConfigRegistry.t.
Implicit Types (w : World ConfigType) (C : ConfigType) (options : Options).

Lemma get_registered_eq w :
  get_registered reg w = (inr (_DataTransformerConfigRegistry._configs reg), w).
Proof. done. Qed.

Lemma register_eq x C w :
  register reg x C w
  = (inr C, (dict_setitem (_DataTransformerConfigRegistry._configs reg) x C w).2).
Proof. done. Qed.

Lemma registry_table_register x C w :
  registry_table reg (register reg x C w).2
  = PyDict.setitem (registry_table reg w) x C.
Proof. rewrite register_eq. apply deref_dict_setitem. Qed.

Lemma get_transformer_config_eq x options w :
  get_transformer_config construct reg x options w
  = match PyDict.getitem (registry_table reg w) x with
    | Some C => (construct C options, w)
    | None => (inl (KeyError x), w)
    end.
Proof.
  unfold get_transformer_config,
    _DataTransformerConfigRegistry.get_transformer_config,
    mbind, M_bind, bind, dict_getitem, registry_table.
  by destruct (PyDict.getitem _ x).
Qed.

(** C3: looking up a name that is not registered raises [KeyError] for
    that name; no instance, default or [None] is returned, and the world
    is left as it was. *)
Theorem get_transformer_config_unregistered name options w :
  name ∉ PyDict.keys (registry_table reg w) →
  get_transformer_config construct reg name options w
  = (inl (KeyError name), w).
Proof.
  intros H%getitem_None. by rewrite get_transformer_config_eq, H.
Qed.

(** C6: after the decorator [register(name=x)] is applied to [C], the
    mapping [get_registered()] returns maps [x] to [C], and
    [get_transformer_config(x, **options)] is [C( **options)]. *)
Theorem register_then_get x C options w :
  let w1 := (register reg x C w).2 in
  (register reg x C w).1 = inr C
  ∧ (∃ l, get_registered reg w1 = (inr l, w1)
          ∧ PyDict.getitem (deref l w1) x = Some C)
  ∧ get_transformer_config construct reg x options w1
    = (construct C options, w1).
Proof.
  intros w1.
  assert (PyDict.getitem (registry_table reg w1) x = Some C) as Hx.
  { unfold w1. rewrite registry_table_register. apply getitem_setitem. }
  split_and!; [done| |].
  - eexists. by rewrite get_registered_eq.
  - by rewrite get_transformer_config_eq, Hx.
Qed.

(** C7: registering a name that is already bound, with a different type,
    raises nothing and replaces the binding in place: the lookup that
    constructed the old type now constructs the new one. *)
Theorem register_again_replaces x C_old C_new options w :
  PyDict.getitem (registry_table reg w) x = Some C_old →
  C_new ≠ C_old →
  let w1 := (register reg x C_new w).2 in
  (register reg x C_new w).1 = inr C_new
  ∧ get_transformer_config construct reg x options w
    = (construct C_old options, w)
  ∧ PyDict.getitem (registry_table reg w1) x = Some C_new
  ∧ PyDict.getitem (registry_table reg w1) x ≠ Some C_old
  ∧ get_transformer_config construct reg x options w1
    = (construct C_new options, w1)
  ∧ PyDict.keys (registry_table reg w1) = PyDict.keys (registry_table reg w).
Proof.
  intros Hold Hne w1.
  assert (PyDict.getitem (registry_table reg w1) x = Some C_new) as Hx.
  { unfold w1. rewrite registry_table_register. apply getitem_setitem. }
  split_and!; [done| |done| | |].
  - by rewrite get_transformer_config_eq, Hold.
  - rewrite Hx. congruence.
  - by rewrite get_transformer_config_eq, Hx.
  - unfold w1. rewrite registry_table_register.
    apply keys_setitem_present.
    destruct (decide (x ∈ PyDict.keys (registry_table reg w))) as [|Hn];
      [done|].
    apply getitem_None in Hn. congruence.
Qed.

(** C10: [get_registered()] hands out the reference held in [_configs],
    allocating nothing; a [d[k] = C] made through it is the very write
    [register(name=k)(C)] makes, and the next
    [get_transformer_config(k, **options)] constructs [C]. *)
Theorem get_registered_is_the_table k C options w :
  ∃ l, get_registered reg w = (inr l, w)
       ∧ l = _DataTransformerConfigRegistry._configs reg
       ∧ let w1 := (dict_setitem l k C w).2 in
         get_transformer_config construct reg k options w1
         = (construct C options, w1)
         ∧ w1 = (register reg k C w).2.
Proof.
  eexists. split_and!; [done..|]. intros w1. split; [|done].
  rewrite get_transformer_config_eq. unfold registry_table, w1.
  by rewrite deref_dict_setitem, getitem_setitem.
Qed.
End RegistryFacts.

(** ** The pre-scan *)

Lemma list_index_app_first x pre rest :
  x ∉ pre → list_index x (pre ++ x :: rest) = Some (length pre).
Proof.
  induction pre as [|y pre IH]; simpl.
  - intros _. by rewrite decide_True.
  - intros [Hne Hnin]%not_elem_of_cons.
    rewrite decide_False by done. by rewrite IH.
Qed.

Lemma list_index_elem_of x l : x ∈ l → is_Some (list_index x l).
Proof.
  induction l as [|y l IH]; simpl.
  - by intros ?%elem_of_nil.
  - destruct (decide (y = x)); [by eexists|].
    intros [?|Hin]%elem_of_cons; [congruence|].
    destruct (IH Hin) as [i ->]. by eexists.
Qed.

(** Without the flag ['--executor'], or without [argv], the pre-scan
    selects nothing. *)
Lemma scan_executor_type_absent argv :
  (∀ a, argv = Some a → "--executor" ∉ a) →
  scan_executor_type argv = inr None.
Proof.
  intros H. destruct argv as [a|]; [|done]. simpl.
  by rewrite bool_decide_eq_false_2 by eauto.
Qed.

(** The token after the first ['--executor'] is selected. *)
Lemma scan_executor_type_present pre v rest :
  "--executor" ∉ pre →
  scan_executor_type (Some (pre ++ "--executor" :: v :: rest)) = inr (Some v).
Proof.
  intros Hpre. simpl. rewrite bool_decide_eq_true_2 by set_solver.
  unfold index. rewrite list_index_app_first by done. simpl.
  unfold getitem. rewrite lookup_app_r by lia.
  by replace (length pre + 1 - length pre) with 1 by lia.
Qed.

(** A trailing ['--executor'] makes the pre-scan index past the end. *)
Lemma scan_executor_type_trailing pre :
  "--executor" ∉ pre →
  scan_executor_type (Some (pre ++ ["--executor"])) = inl IndexError.
Proof.
  intros Hpre. simpl. rewrite bool_decide_eq_true_2 by set_solver.
  unfold index. rewrite list_index_app_first by done. simpl.
  unfold getitem. rewrite lookup_ge_None_2; [done|].
  rewrite length_app. simpl. lia.
Qed.

(** ** The argument surface *)

Section ChoicesFacts.
Context {ConfigType : Type}.
Variable reg : _DataTransformerConfigRegistry.t.
Implicit Types (w : World ConfigType) (p q : loc).

Lemma bind_parser_call {A} p c (k : unit → M ConfigType A) w :
  bind (parser_call p c) k w = k tt (parser_call p c w).2.
Proof. done. Qed.

Lemma for_each_config_groups p argv et (entries : list (string * ConfigType)) w :
  let r := for_each entries (λ '(name, config_type),
             parser_call p
               (ConfigArgumentGroup config_type argv
                  (bool_decide (Some name = et)))) w in
  r.1 = inr tt
  ∧ dicts r.2 = dicts w
  ∧ calls p r.2 = (calls p w ++ component_calls argv et entries)%list
  ∧ ∀ q, p ≠ q → calls q r.2 = calls q w.
Proof.
  revert w. induction entries as [|[n c] entries IH]; intros w.
  - simpl. split_and!; [done..| |done]. by rewrite app_nil_r.
  - cbn [for_each component_calls fmap list_fmap]. rewrite bind_parser_call.
    destruct (IH (parser_call p
      (ConfigArgumentGroup c argv (bool_decide (Some n = et))) w).2)
      as (H1 & H2 & H3 & H4).
    split_and!; [done|by rewrite H2|..].
    + rewrite H3, calls_parser_call. by rewrite <-app_assoc.
    + intros q Hq. rewrite H4 by done. by apply calls_parser_call_ne.
Qed.

(** The body of [add_argument_group] with the binds unfolded. *)
Lemma add_argument_group_unfold cls p argv required w :
  add_argument_group reg cls p argv required w
  = let w1 := (parser_call p (AddArgumentGroup cls) w).2 in
    let w2 := (parser_call p (selector_call reg cls w) w1).2 in
    match scan_executor_type argv with
    | inl e => (inl e, w2)
    | inr et =>
        for_each (PyDict.items (registry_table reg w))
          (λ '(name, config_type),
             parser_call p
               (ConfigArgumentGroup config_type argv
                  (bool_decide (Some name = et)))) w2
    end.
Proof.
  unfold add_argument_group, mbind, M_bind, bind, lift. simpl.
  by destruct (scan_executor_type argv).
Qed.

(** What [add_argument_group] does: two calls for the selector, then
    either the exception of the pre-scan or one call per registered
    entry, in the dict's order. *)
Lemma add_argument_group_calls cls p argv required w :
  let r := add_argument_group reg cls p argv required w in
  dicts r.2 = dicts w
  ∧ (∀ q, p ≠ q → calls q r.2 = calls q w)
  ∧ match scan_executor_type argv with
    | inl e =>
        r.1 = inl e
        ∧ calls p r.2
          = calls p w ++ [AddArgumentGroup cls; selector_call reg cls w]
    | inr et =>
        r.1 = inr tt
        ∧ calls p r.2
          = calls p w ++ [AddArgumentGroup cls; selector_call reg cls w]
              ++ component_calls argv et (PyDict.items (registry_table reg w))
    end.
Proof.
  intros r. subst r. rewrite add_argument_group_unfold. cbv zeta.
  set (w1 := (parser_call p (AddArgumentGroup cls) w).2).
  set (w2 := (parser_call p (selector_call reg cls w) w1).2).
  assert (calls p w2
          = calls p w ++ [AddArgumentGroup cls; selector_call reg cls w])
    as Hsel.
  { unfold w2, w1. rewrite !calls_parser_call. by rewrite <-app_assoc. }
  assert (∀ q, p ≠ q → calls q w2 = calls q w) as Hother.
  { intros q Hq. unfold w2, w1. by rewrite !calls_parser_call_ne. }
  destruct (scan_executor_type argv) as [e|et].
  - by split_and!.
  - destruct (for_each_config_groups p argv et
                (PyDict.items (registry_table reg w)) w2)
      as (H1 & H2 & H3 & H4).
    split_and!; [by rewrite H2| |done|].
    + intros q Hq. rewrite H4 by done. by apply Hother.
    + rewrite H3, Hsel. by rewrite <-app_assoc.
Qed.
End ChoicesFacts.

Section SurfaceFacts.
Context {ConfigType : Type}.
Variable reg : _DataTransformerConfigRegistry.t.
Implicit Types (w : World ConfigType) (p q : loc).

Lemma component_calls_are_config_groups argv et
    (entries : list (string * ConfigType)) :
  forallb is_config_group (component_calls argv et entries) = true.
Proof.
  unfold component_calls.
  induction entries as [|[n c] entries IH]; [done|]. simpl. apply IH.
Qed.

Lemma component_calls_none argv (entries : list (string * ConfigType)) :
  required_of <$> component_calls argv None entries
  = (λ _, Some false) <$> entries.
Proof.
  unfold component_calls.
  induction entries as [|[n c] entries IH]; [done|].
  cbn [fmap list_fmap]. by f_equal.
Qed.

(** C8: whatever the registry holds, [add_argument_group] opens one
    group and adds to it one argument, ['--transformer'], whose choices
    are the registered names in sorted order and whose default is
    ['null']; every later call on the parser is a registered type's own
    [add_argument_group]. *)
Theorem add_argument_group_selector cls p argv required w :
  let names := PyDict.keys (registry_table reg w) in
  let w' := (add_argument_group reg cls p argv required w).2 in
  ∃ sel rest,
    calls p w'
    = calls p w ++ AddArgumentGroup cls :: AddArgument cls sel :: rest
    ∧ forallb is_config_group rest = true
    ∧ option_string sel = "--transformer"
    ∧ default sel = "null"
    ∧ choices sel = sorted names
    ∧ StronglySorted String.le (choices sel)
    ∧ choices sel ≡ₚ names.
Proof.
  intros names w'.
  destruct (add_argument_group_calls reg cls p argv required w)
    as (_ & _ & Hcalls).
  eexists {| option_string := "--transformer"; choices := sorted names;
             default := "null"; help := "executor to use" |}.
  destruct (scan_executor_type argv) as [e|et]; destruct Hcalls as [_ Hcalls].
  - exists []. split_and!; try done.
    + apply StronglySorted_merge_sort; apply _.
    + apply merge_sort_Permutation.
  - exists (component_calls argv et (PyDict.items (registry_table reg w))).
    split_and!; try done.
    + apply component_calls_are_config_groups.
    + apply StronglySorted_merge_sort; apply _.
    + apply merge_sort_Permutation.
Qed.

(** When ['--executor'] does not occur in [argv], every registered type
    is called with [required=False], whatever else [argv] holds. *)
Lemma add_argument_group_without_executor cls p argv required w :
  (∀ a, argv = Some a → "--executor" ∉ a) →
  let r := add_argument_group reg cls p argv required w in
  r.1 = inr tt
  ∧ calls p r.2
    = calls p w ++ [AddArgumentGroup cls; selector_call reg cls w]
        ++ component_calls argv None (PyDict.items (registry_table reg w)).
Proof.
  intros Habs r.
  destruct (add_argument_group_calls reg cls p argv required w)
    as (_ & _ & Hcalls).
  by rewrite scan_executor_type_absent in Hcalls.
Qed.

(** When the first ['--executor'] is followed by [v], exactly the entries
    named [v] are called with [required=True]. *)
Lemma add_argument_group_with_executor cls p pre v rest required w :
  "--executor" ∉ pre →
  let argv := Some (pre ++ "--executor" :: v :: rest) in
  let r := add_argument_group reg cls p argv required w in
  r.1 = inr tt
  ∧ calls p r.2
    = calls p w ++ [AddArgumentGroup cls; selector_call reg cls w]
        ++ component_calls argv (Some v) (PyDict.items (registry_table reg w)).
Proof.
  intros Hpre argv r.
  destruct (add_argument_group_calls reg cls p argv required w)
    as (_ & _ & Hcalls).
  unfold argv in Hcalls.
  by rewrite scan_executor_type_present in Hcalls.
Qed.
End SurfaceFacts.

(** ** The concrete run *)

Lemma example_import :
  (Example.import_module Example.empty_world).1
  = inr Example._transformer_configs
  ∧ registry_table Example._transformer_configs Example.world
    = [("null", "NullTransformerConfig"); ("foo", "FooConfig")]
  ∧ calls Example.parser Example.world = [].
Proof. by vm_compute. Qed.

(** C1: the pre-scan looks for ['--executor'], not for the selector flag
    ['--transformer'] it has just added.  With ['null'] and ['foo']
    registered and [argv = ['--transformer', 'foo']], the group of ['foo']
    is added with [required=False], like every other group. *)
Theorem add_argument_group_ignores_transformer_flag :
  let argv := Some ["--transformer"; "foo"] in
  let r := add_argument_group Example._transformer_configs
             "DataTransformerChoicesConfig" Example.parser argv true
             Example.world in
  PyDict.getitem (registry_table Example._transformer_configs Example.world)
    "foo" = Some "FooConfig"
  ∧ r.1 = inr tt
  ∧ calls Example.parser r.2
    = [AddArgumentGroup "DataTransformerChoicesConfig";
       AddArgument "DataTransformerChoicesConfig"
         {| option_string := "--transformer"; choices := ["foo"; "null"];
            default := "null"; help := "executor to use" |};
       ConfigArgumentGroup "NullTransformerConfig" argv false;
       ConfigArgumentGroup "FooConfig" argv false].
Proof. by vm_compute. Qed.

(** C9: with ['--transformer'] absent from [argv] but ['--executor']
    present, the token after ['--executor'] is taken as the selection:
    [argv = ['--executor', 'null']] adds the group of ['null'] with
    [required=True]. *)
Theorem add_argument_group_requires_on_executor_flag :
  let argv := Some ["--executor"; "null"] in
  let r := add_argument_group Example._transformer_configs
             "DataTransformerChoicesConfig" Example.parser argv true
             Example.world in
  bool_decide ("--transformer" ∈ ["--executor"; "null"]) = false
  ∧ r.1 = inr tt
  ∧ calls Example.parser r.2
    = [AddArgumentGroup "DataTransformerChoicesConfig";
       AddArgument "DataTransformerChoicesConfig"
         {| option_string := "--transformer"; choices := ["foo"; "null"];
            default := "null"; help := "executor to use" |};
       ConfigArgumentGroup "NullTransformerConfig" argv true;
       ConfigArgumentGroup "FooConfig" argv false].
Proof. by vm_compute. Qed.

(** A trailing ['--executor'] raises [IndexError] after the selector has
    been added and before any registered type is called. *)
Lemma add_argument_group_trailing_executor :
  let r := add_argument_group Example._transformer_configs
             "DataTransformerChoicesConfig" Example.parser
             (Some ["--executor"]) true Example.world in
  r.1 = inl IndexError ∧ length (calls Example.parser r.2) = 2.
Proof. by vm_compute. Qed.

Lemma get_transformer_config_unregistered_witness :
  get_transformer_config Example.construct Example._transformer_configs
    "nonexistent" [("field", 1%Z)] Example.world
  = (inl (KeyError "nonexistent"), Example.world).
Proof.
  apply get_transformer_config_unregistered.
  destruct example_import as (_ & -> & _).
  apply (bool_decide_unpack _). by vm_compute.
Defined.

Lemma register_again_replaces_witness :
  let w1 := (register Example._transformer_configs "foo" "BarConfig"
               Example.world).2 in
  (register Example._transformer_configs "foo" "BarConfig" Example.world).1
  = inr "BarConfig"
  ∧ get_transformer_config Example.construct Example._transformer_configs
      "foo" [("field", 1%Z)] Example.world
    = (inr ("FooConfig", [("field", 1%Z)]), Example.world)
  ∧ get_transformer_config Example.construct Example._transformer_configs
      "foo" [("field", 1%Z)] w1
    = (inr ("BarConfig", [("field", 1%Z)]), w1).
Proof.
  destruct (register_again_replaces Example.construct
              Example._transformer_configs "foo" "FooConfig" "BarConfig"
              [("field", 1%Z)] Example.world)
    as (H1 & H2 & _ & _ & H3 & _).
  - by vm_compute.
  - discriminate.
  - by split_and!.
Defined.

(** * Further properties of the registry *)

Section PyDictMore.
Context {V : Type}.
Implicit Types (d : PyDict.t V) (k : string) (v : V).

Lemma setitem_setitem d k v v' :
  PyDict.setitem (PyDict.setitem d k v') k v = PyDict.setitem d k v.
Proof.
  induction d as [|[k0 v0] d IH]; simpl.
  - by rewrite decide_True.
  - destruct (decide (k0 = k)) as [->|Hne]; simpl.
    + by rewrite decide_True.
    + rewrite decide_False by done. by rewrite IH.
Qed.

Lemma getitem_setitem_decide d k k' v :
  PyDict.getitem (PyDict.setitem d k v) k'
  = if decide (k = k') then Some v else PyDict.getitem d k'.
Proof.
  destruct (decide (k = k')) as [->|Hne].
  - apply getitem_setitem.
  - by apply getitem_setitem_ne.
Qed.

Lemma keys_setitem d k v :
  PyDict.keys (PyDict.setitem d k v)
  = if bool_decide (k ∈ PyDict.keys d) then PyDict.keys d
    else PyDict.keys d ++ [k].
Proof.
  case_bool_decide.
  - by apply keys_setitem_present.
  - by apply keys_setitem_fresh.
Qed.

Lemma items_setitem_fresh d k v :
  k ∉ PyDict.keys d → PyDict.items (PyDict.setitem d k v) = PyDict.items d ++ [(k, v)].
Proof.
  unfold PyDict.keys, PyDict.items.
  induction d as [|[k0 v0] d IH]; simpl; [done|].
  intros [Hne Hnin]%not_elem_of_cons.
  rewrite decide_False by done. f_equal. by apply IH.
Qed.
End PyDictMore.

Section RegistryMore.
Context {ConfigType Options Instance : Type}.
Variable construct : ConfigType → Options → result Instance.
Implicit Types (w : World ConfigType) (C : ConfigType) (options : Options).
Implicit Types (reg : _DataTransformerConfigRegistry.t).

Lemma init_eq w :
  _DataTransformerConfigRegistry.__init__ w
  = (inr (_DataTransformerConfigRegistry.mk (fresh (dom (dicts w)))),
     (dict_new w).2).
Proof. done. Qed.

Lemma init_registry_is_empty_aux w :
  ∃ r, (_DataTransformerConfigRegistry.__init__ w).1 = inr r
    ∧ registry_table r (_DataTransformerConfigRegistry.__init__ w).2 = [].
Proof.
  eexists. rewrite init_eq. split; [done|]. cbn [fst snd].
  unfold registry_table, deref. simpl. by rewrite lookup_total_insert_eq.
Qed.

(** X1: a new registry holds nothing: every lookup in it raises
    [KeyError]; creating it takes a reference no dict was using and
    leaves every other dict and every parser as they were. *)
Theorem init_registry_is_empty w :
  ∃ r, (_DataTransformerConfigRegistry.__init__ w).1 = inr r
    ∧ let w1 := (_DataTransformerConfigRegistry.__init__ w).2 in
      dicts w !! _DataTransformerConfigRegistry._configs r = None
      ∧ registry_table r w1 = []
      ∧ (∀ name options,
           get_transformer_config construct r name options w1
           = (inl (KeyError name), w1))
      ∧ (∀ l, l ≠ _DataTransformerConfigRegistry._configs r →
              deref l w1 = deref l w)
      ∧ parsers w1 = parsers w.
Proof.
  eexists. rewrite init_eq. split; [done|]. cbn [fst snd].
  destruct (dict_new_fresh w) as (l & Hl & Hnone & Hempty & Hother).
  injection Hl as <-.
  split_and!; [done|done| |by auto|done].
  intros name options. rewrite get_transformer_config_eq.
  unfold registry_table. cbn [_DataTransformerConfigRegistry._configs].
  by rewrite Hempty.
Qed.

(** X2: two registries created one after the other do not share a
    table: a type registered in the first is found there and is a
    [KeyError] in the second. *)
Theorem registries_do_not_share x C options w :
  ∃ r1 r2,
    (_DataTransformerConfigRegistry.__init__ w).1 = inr r1
    ∧ (_DataTransformerConfigRegistry.__init__
         (_DataTransformerConfigRegistry.__init__ w).2).1 = inr r2
    ∧ let w2 := (_DataTransformerConfigRegistry.__init__
                   (_DataTransformerConfigRegistry.__init__ w).2).2 in
      let w3 := (register r1 x C w2).2 in
      get_transformer_config construct r1 x options w3
      = (construct C options, w3)
      ∧ get_transformer_config construct r2 x options w3
        = (inl (KeyError x), w3).
Proof.
  destruct (init_registry_is_empty_aux
              (_DataTransformerConfigRegistry.__init__ w).2)
    as (r2 & Hr2 & Hempty).
  eexists _, r2. split_and!; [by rewrite init_eq|done|]. intros w2 w3.
  fold w2 in Hempty.
  set (l1 := fresh (dom (dicts w))).
  assert (l1 ≠ _DataTransformerConfigRegistry._configs r2) as Hne.
  { rewrite init_eq in Hr2. injection Hr2 as <-. simpl.
    fold l1. intros Heq.
    apply (is_fresh (dom (<[l1:=PyDict.empty]> (dicts w)))).
    rewrite <-Heq. apply elem_of_dom. by rewrite lookup_insert_eq. }
  split.
  - rewrite get_transformer_config_eq. unfold w3.
    by rewrite registry_table_register, getitem_setitem.
  - rewrite get_transformer_config_eq. unfold registry_table, w3.
    rewrite register_eq. cbn [snd].
    rewrite deref_dict_setitem_ne by done.
    unfold registry_table in Hempty. by rewrite Hempty.
Qed.

(** X3: registering [x] changes nothing but the entry of [x]: every
    other name looks up as before, and no other dict and no parser is
    touched. *)
Theorem register_frame reg x C w :
  let w1 := (register reg x C w).2 in
  (∀ y options, y ≠ x →
     (get_transformer_config construct reg y options w1).1
     = (get_transformer_config construct reg y options w).1)
  ∧ (∀ l, l ≠ _DataTransformerConfigRegistry._configs reg →
          deref l w1 = deref l w)
  ∧ parsers w1 = parsers w.
Proof.
  intros w1. split_and!; [| |done].
  - intros y options Hne. rewrite !get_transformer_config_eq. unfold w1.
    rewrite registry_table_register, getitem_setitem_ne by done.
    by destruct (PyDict.getitem _ y).
  - intros l Hne. unfold w1. rewrite register_eq. cbn [snd].
    by apply deref_dict_setitem_ne.
Qed.

(** X4: the registry keeps insertion order: a name already registered
    stays where it is, a new name goes last. *)
Theorem register_keys_order reg x C w :
  PyDict.keys (registry_table reg (register reg x C w).2)
  = if bool_decide (x ∈ PyDict.keys (registry_table reg w))
    then PyDict.keys (registry_table reg w)
    else PyDict.keys (registry_table reg w) ++ [x].
Proof. rewrite registry_table_register. apply keys_setitem. Qed.

(** X5: registering the same type under the same name twice is the same
    as registering it once. *)
Theorem register_idempotent reg x C w :
  register reg x C (register reg x C w).2 = (inr C, (register reg x C w).2).
Proof.
  rewrite !register_eq. cbn [snd]. f_equal.
  unfold dict_setitem at 1. cbn [snd]. rewrite deref_dict_setitem.
  rewrite setitem_setitem. unfold dict_setitem. cbn [snd dicts parsers].
  by rewrite insert_insert_eq.
Qed.

Lemma registry_table_registrations_cons reg n C rs w :
  registrations reg ((n, C) :: rs) w
  = registrations reg rs (register reg n C w).2.
Proof. done. Qed.

(** X6: after any sequence of registrations, a name looks up to the type
    of the last registration made under it, and to what it was before
    when the sequence does not mention it. *)
Theorem registrations_last_wins reg rs name w :
  PyDict.getitem (registry_table reg (registrations reg rs w)) name
  = match last_binding rs name with
    | Some C => Some C
    | None => PyDict.getitem (registry_table reg w) name
    end.
Proof.
  revert w. induction rs as [|[n C] rs IH]; intros w; [done|].
  rewrite registry_table_registrations_cons, IH. cbn [last_binding].
  destruct (last_binding rs name); [done|].
  rewrite registry_table_register, getitem_setitem_decide.
  by destruct (decide (n = name)).
Qed.

Lemma registrations_keys reg rs w n :
  n ∈ PyDict.keys (registry_table reg (registrations reg rs w))
  ↔ n ∈ PyDict.keys (registry_table reg w) ∨ n ∈ rs.*1.
Proof.
  revert w. induction rs as [|[m C] rs IH]; intros w.
  - simpl. split; [by left | intros [?|?%elem_of_nil]; done].
  - rewrite registry_table_registrations_cons, IH.
    rewrite registry_table_register, keys_setitem. csimpl.
    rewrite elem_of_cons. case_bool_decide.
    + split; [intros [?|?]; auto | intros [?|[->|?]]; auto].
    + rewrite elem_of_app, list_elem_of_singleton. tauto.
Qed.

Lemma registrations_NoDup reg rs w :
  NoDup (PyDict.keys (registry_table reg w)) →
  NoDup (PyDict.keys (registry_table reg (registrations reg rs w))).
Proof.
  revert w. induction rs as [|[m C] rs IH]; intros w Hnd; [done|].
  rewrite registry_table_registrations_cons. apply IH.
  rewrite registry_table_register. by apply keys_setitem_NoDup.
Qed.

(** X7: a registry built from scratch by any sequence of registrations
    lists each registered name once: its keys have no duplicate and are
    exactly the names of the sequence. *)
Theorem registrations_keys_distinct (rs : list (string * ConfigType)) w :
  ∃ r, (_DataTransformerConfigRegistry.__init__ w).1 = inr r
    ∧ let w' := registrations r rs
                  (_DataTransformerConfigRegistry.__init__ w).2 in
      NoDup (PyDict.keys (registry_table r w'))
      ∧ ∀ n, n ∈ PyDict.keys (registry_table r w') ↔ n ∈ rs.*1.
Proof.
  destruct (init_registry_is_empty_aux w) as (r & Hr & Hempty).
  exists r. split; [done|]. intros w'. split.
  - apply registrations_NoDup. rewrite Hempty. apply NoDup_nil_2.
  - intros n. unfold w'. rewrite registrations_keys, Hempty.
    split; [intros [?%elem_of_nil|?]; done | by right].
Qed.
End RegistryMore.

(** * Further properties of the filter selector and the argument surface *)

(** X8: the result of [get_filter] tells which configuration produced
    it: a null filter only comes from [filter_type = None], a size filter
    from its own type and carries the configured bounds, and the
    [AssertionError] quotes the offending [filter_type]. *)
Theorem get_filter_inversion c :
  match get_filter c with
  | inr NullFilter => filter_type c = None
  | inr (ObjectSizeFilter lo hi) =>
      filter_type c = Some "object-size"
      ∧ lo = filter_min_size c ∧ hi = filter_max_size c
  | inr (PickleSizeFilter lo hi) =>
      filter_type c = Some "pickle-size"
      ∧ lo = filter_min_size c ∧ hi = filter_max_size c
  | inl e =>
      ∃ t, filter_type c = Some t
           ∧ t ≠ "object-size" ∧ t ≠ "pickle-size"
           ∧ e = AssertionError ("Unknown filter type " ++ t ++ ".")%string
  end.
Proof.
  destruct (get_filter_cases c)
    as [[Ht ->]|[[Ht ->]|[[Ht ->]|[(_ & H1 & H2) (t & Ht & ->)]]]];
    [done..|].
  exists t. rewrite Ht in H1, H2. split_and!; [done| | |done]; congruence.
Qed.


Section SurfaceMore.
Context {ConfigType : Type}.
Variable reg : _DataTransformerConfigRegistry.t.
Implicit Types (w : World ConfigType) (p q : loc).

(** X9: the [required] parameter has no effect: the calls made on the
    parser and the outcome are the same whatever is passed for it. *)
Theorem add_argument_group_ignores_required cls p argv (r1 r2 : bool) w :
  add_argument_group reg cls p argv r1 w
  = add_argument_group reg cls p argv r2 w.
Proof. by rewrite !add_argument_group_unfold. Qed.

(** X10: [add_argument_group] only appends calls to the parser it was
    given: the registry and every dict are unchanged, other parsers see
    nothing, and the calls made earlier on this parser stay in front of
    at least two new ones. *)
Theorem add_argument_group_frame cls p argv required w :
  let w' := (add_argument_group reg cls p argv required w).2 in
  dicts w' = dicts w
  ∧ (∀ q, p ≠ q → calls q w' = calls q w)
  ∧ ∃ new, calls p w' = calls p w ++ new ∧ (2 ≤ length new)%nat.
Proof.
  intros w'.
  destruct (add_argument_group_calls reg cls p argv required w)
    as (Hd & Hq & Hcalls).
  split_and!; [done..|].
  destruct (scan_executor_type argv) as [e|et];
    destruct Hcalls as [_ Hcalls]; eexists; (split; [exact Hcalls|]).
  - done.
  - rewrite length_app. simpl. lia.
Qed.


(** X12: when the first ['--executor'] is the last token, the
    [IndexError] comes after the selector has been added and before any
    registered type is called: the parser is left with the group and its
    ['--transformer'] argument only. *)
Theorem add_argument_group_trailing_flag cls p pre required w :
  "--executor" ∉ pre →
  let r := add_argument_group reg cls p (Some (pre ++ ["--executor"]))
             required w in
  r.1 = inl IndexError
  ∧ calls p r.2
    = calls p w ++ [AddArgumentGroup cls; selector_call reg cls w].
Proof.
  intros Hpre r.
  destruct (add_argument_group_calls reg cls p
              (Some (pre ++ ["--executor"])) required w)
    as (_ & _ & Hcalls).
  by rewrite scan_executor_type_trailing in Hcalls.
Qed.

Lemma component_calls_config_types argv et
    (entries : list (string * ConfigType)) :
  config_type_of <$> component_calls argv et entries = Some <$> entries.*2.
Proof.
  unfold component_calls.
  induction entries as [|[n c] entries IH]; [done|]. csimpl. by f_equal.
Qed.

Lemma component_calls_argv argv et (entries : list (string * ConfigType)) :
  Forall (λ c, argv_of c = Some argv) (component_calls argv et entries).
Proof.
  unfold component_calls.
  induction entries as [|[n c] entries IH]; [done|]. csimpl.
  by constructor.
Qed.

(** X13: when it returns, [add_argument_group] has called the
    [add_argument_group] of every registered type once, in registration
    order, each with the [argv] it was given. *)
Theorem add_argument_group_calls_every_type cls p argv required w :
  let r := add_argument_group reg cls p argv required w in
  r.1 = inr tt →
  ∃ groups,
    calls p r.2
    = calls p w ++ AddArgumentGroup cls :: selector_call reg cls w :: groups
    ∧ config_type_of <$> groups
      = Some <$> (PyDict.items (registry_table reg w)).*2
    ∧ Forall (λ c, argv_of c = Some argv) groups.
Proof.
  intros r Hr.
  destruct (add_argument_group_calls reg cls p argv required w)
    as (_ & _ & Hcalls). fold r in Hcalls.
  destruct (scan_executor_type argv) as [e|et]; destruct Hcalls as [Hr' Hc].
  - congruence.
  - eexists. split; [exact Hc|]. split.
    + apply component_calls_config_types.
    + apply component_calls_argv.
Qed.

Lemma component_calls_required argv et (entries : list (string * ConfigType)) :
  required_of <$> component_calls argv et entries
  = (λ e, Some (bool_decide (Some e.1 = et))) <$> entries.
Proof.
  unfold component_calls.
  induction entries as [|[n c] entries IH]; [done|]. csimpl. by f_equal.
Qed.

(** X14: the group marked required is chosen by the token after the
    first ['--executor'] of [argv]: an entry is called with
    [required=True] exactly when its name is that token, so a token that
    names no registered type marks none. *)
Theorem add_argument_group_required_rule cls p pre v rest required w :
  "--executor" ∉ pre →
  let argv := Some (pre ++ "--executor" :: v :: rest) in
  let r := add_argument_group reg cls p argv required w in
  r.1 = inr tt
  ∧ ∃ groups,
      calls p r.2
      = calls p w ++ AddArgumentGroup cls :: selector_call reg cls w :: groups
      ∧ required_of <$> groups
        = (λ e, Some (bool_decide (e.1 = v)))
            <$> PyDict.items (registry_table reg w).
Proof.
  intros Hpre argv r.
  destruct (add_argument_group_calls reg cls p argv required w)
    as (_ & _ & Hcalls). fold r in Hcalls. unfold argv in Hcalls.
  rewrite scan_executor_type_present in Hcalls by done.
  destruct Hcalls as [Hr Hc]. split; [done|].
  eexists. split; [exact Hc|]. rewrite component_calls_required.
  apply list_fmap_ext. intros i [n c] _. simpl. f_equal.
  apply bool_decide_ext. split; [by intros [= ->] | by intros ->].
Qed.
Lemma component_calls_none_required argv v
    (entries : list (string * ConfigType)) :
  v ∉ entries.*1 →
  filter (λ c, required_of c = Some true)
    (component_calls argv (Some v) entries) = [].
Proof.
  unfold component_calls.
  induction entries as [|[n c] entries IH]; [done|]. csimpl.
  intros [Hne Hnin]%not_elem_of_cons.
  rewrite filter_cons_False.
  - by apply IH.
  - simpl. rewrite bool_decide_eq_false_2; [done | congruence].
Qed.

Lemma component_calls_at_most_one argv et
    (entries : list (string * ConfigType)) :
  NoDup entries.*1 →
  (length (filter (λ c, required_of c = Some true)
     (component_calls argv et entries)) ≤ 1)%nat.
Proof.
  destruct et as [v|].
  - induction entries as [|[n c] entries IH]; [simpl; lia|]. csimpl.
    intros [Hnin Hnd]%NoDup_cons.
    unfold component_calls. csimpl.
    destruct (decide (n = v)) as [->|Hne].
    + rewrite filter_cons_True
        by (simpl; by rewrite bool_decide_eq_true_2).
      fold (component_calls argv (Some v) entries).
      by rewrite component_calls_none_required.
    + rewrite filter_cons_False
        by (simpl; rewrite bool_decide_eq_false_2; [done | congruence]).
      by apply IH.
  - intros _. unfold component_calls.
    induction entries as [|[n c] entries IH]; [simpl; lia|]. csimpl.
    by rewrite filter_cons_False.
Qed.

(** X15: whatever [argv] is, at most one registered type is called with
    [required=True], provided the registry lists each name once (as every
    registry built by [register] does). *)
Theorem add_argument_group_at_most_one_required cls p argv required w :
  NoDup (PyDict.keys (registry_table reg w)) →
  let w' := (add_argument_group reg cls p argv required w).2 in
  ∃ new,
    calls p w' = calls p w ++ new
    ∧ (length (filter (λ c, required_of c = Some true) new) ≤ 1)%nat.
Proof.
  intros Hnd w'.
  destruct (add_argument_group_calls reg cls p argv required w)
    as (_ & _ & Hcalls).
  destruct (scan_executor_type argv) as [e|et];
    destruct Hcalls as [_ Hc]; eexists; (split; [exact Hc|]).
  - simpl. lia.
  - rewrite filter_app.
    rewrite (filter_cons_False _ (AddArgumentGroup cls)) by done.
    rewrite (filter_cons_False _ (selector_call reg cls w)) by done.
    rewrite filter_nil. simpl. by apply component_calls_at_most_one.
Qed.

(** X16: a type registered under a new name is offered last: after
    [register(name=x)(C)] with [x] not yet registered, a returning
    [add_argument_group] calls the earlier types in the same order as
    before and then [C]. *)
Theorem add_argument_group_after_register cls p argv required x C w :
  x ∉ PyDict.keys (registry_table reg w) →
  let w1 := (register reg x C w).2 in
  let r := add_argument_group reg cls p argv required w1 in
  r.1 = inr tt →
  ∃ groups,
    calls p r.2
    = calls p w ++ AddArgumentGroup cls :: selector_call reg cls w1 :: groups
    ∧ config_type_of <$> groups
      = Some <$> ((PyDict.items (registry_table reg w)).*2 ++ [C]).
Proof.
  intros Hnew w1 r Hr.
  destruct (add_argument_group_calls reg cls p argv required w1)
    as (_ & _ & Hcalls). fold r in Hcalls.
  destruct (scan_executor_type argv) as [e|et]; destruct Hcalls as [Hr' Hc];
    [congruence|].
  eexists. split; [exact Hc|].
  rewrite component_calls_config_types. unfold w1.
  rewrite registry_table_register, items_setitem_fresh by done.
  by rewrite fmap_app.
Qed.
End SurfaceMore.

(** ** The further properties on the concrete run *)

Lemma add_argument_group_trailing_flag_witness :
  let r := add_argument_group Example._transformer_configs
             "DataTransformerChoicesConfig" Example.parser
             (Some (["--transformer"; "foo"] ++ ["--executor"])) true
             Example.world in
  r.1 = inl IndexError
  ∧ calls Example.parser r.2
    = calls Example.parser Example.world
        ++ [AddArgumentGroup "DataTransformerChoicesConfig";
            selector_call Example._transformer_configs
              "DataTransformerChoicesConfig" Example.world].
Proof.
  apply (add_argument_group_trailing_flag Example._transformer_configs
           "DataTransformerChoicesConfig" Example.parser
           ["--transformer"; "foo"] true Example.world).
  apply (bool_decide_unpack _). by vm_compute.
Defined.

Lemma add_argument_group_calls_every_type_witness :
  let argv := Some ["--transformer"; "foo"] in
  let r := add_argument_group Example._transformer_configs
             "DataTransformerChoicesConfig" Example.parser argv true
             Example.world in
  ∃ groups,
    calls Example.parser r.2
    = calls Example.parser Example.world
        ++ AddArgumentGroup "DataTransformerChoicesConfig"
           :: selector_call Example._transformer_configs
                "DataTransformerChoicesConfig" Example.world
           :: groups
    ∧ config_type_of <$> groups
      = Some <$> (PyDict.items
                    (registry_table Example._transformer_configs
                       Example.world)).*2
    ∧ Forall (λ c, argv_of c = Some argv) groups.
Proof.
  apply (add_argument_group_calls_every_type Example._transformer_configs
           "DataTransformerChoicesConfig" Example.parser
           (Some ["--transformer"; "foo"]) true Example.world).
  by vm_compute.
Defined.

Lemma add_argument_group_required_rule_witness :
  let argv := Some ([] ++ "--executor" :: "null" :: ["--transformer"; "foo"]) in
  let r := add_argument_group Example._transformer_configs
             "DataTransformerChoicesConfig" Example.parser argv true
             Example.world in
  r.1 = inr tt
  ∧ ∃ groups,
      calls Example.parser r.2
      = calls Example.parser Example.world
          ++ AddArgumentGroup "DataTransformerChoicesConfig"
             :: selector_call Example._transformer_configs
                  "DataTransformerChoicesConfig" Example.world
             :: groups
      ∧ required_of <$> groups
        = (λ e, Some (bool_decide (e.1 = "null")))
            <$> PyDict.items
                  (registry_table Example._transformer_configs Example.world).
Proof.
  apply (add_argument_group_required_rule Example._transformer_configs
           "DataTransformerChoicesConfig" Example.parser
           [] "null" ["--transformer"; "foo"] true Example.world).
  apply not_elem_of_nil.
Defined.

Lemma add_argument_group_at_most_one_required_witness :
  let w' := (add_argument_group Example._transformer_configs
               "DataTransformerChoicesConfig" Example.parser
               (Some ["--executor"; "null"]) true Example.world).2 in
  ∃ new,
    calls Example.parser w' = calls Example.parser Example.world ++ new
    ∧ (length (filter (λ c, required_of c = Some true) new) ≤ 1)%nat.
Proof.
  apply (add_argument_group_at_most_one_required
           Example._transformer_configs "DataTransformerChoicesConfig"
           Example.parser (Some ["--executor"; "null"]) true Example.world).
  apply (bool_decide_unpack _). by vm_compute.
Defined.

Lemma add_argument_group_after_register_witness :
  let w1 := (register Example._transformer_configs "bar" "BarConfig"
               Example.world).2 in
  let r := add_argument_group Example._transformer_configs
             "DataTransformerChoicesConfig" Example.parser None true w1 in
  ∃ groups,
    calls Example.parser r.2
    = calls Example.parser Example.world
        ++ AddArgumentGroup "DataTransformerChoicesConfig"
           :: selector_call Example._transformer_configs
                "DataTransformerChoicesConfig" w1
           :: groups
    ∧ config_type_of <$> groups
      = Some <$> ((PyDict.items
                     (registry_table Example._transformer_configs
                        Example.world)).*2 ++ ["BarConfig"]).
Proof.
  apply (add_argument_group_after_register Example._transformer_configs
           "DataTransformerChoicesConfig" Example.parser None true
           "bar" "BarConfig" Example.world).
  - apply (bool_decide_unpack _). by vm_compute.
  - by vm_compute.
Defined.
